(** * The ST7789V panel driver of fbtft (fb_st7789v.c), embedded and verified

    The driver is a bundle of four callbacks ([init_display], [set_var],
    [set_gamma], [blank]) and a static descriptor ([display]).  Every
    callback talks to the panel through three host services only: the reset
    line, the millisecond delay and the register-write primitive.  The
    callbacks are embedded as programs of a small state-and-failure monad
    over a [machine] that records what reached the bus, holds the caller's
    gamma buffer and logs every array index the code uses. *)

From Stdlib Require Import ZArith Lia Bool String Ascii.
From stdpp Require Import base list.

Local Open Scope Z_scope.

(** ** Fixed-width integers (linux/types.h, linux/bitops.h) *)

Module bitops.

(** [BIT(nr)] of linux/bits.h. *)
Definition BIT (nr : Z) : Z := Z.shiftl 1 nr.

(** Conversion to an unsigned type of [w] bits. *)
Definition wrap (w : Z) (x : Z) : Z := x mod 2 ^ w.

Definition u8 : Z -> Z := wrap 8.
Definition u16 : Z -> Z := wrap 16.
Definition u32 : Z -> Z := wrap 32.

Definition INT_MAX : Z := 2 ^ 31 - 1.

(** Conversion to [int]; the kernel is built with wrapping signed
    arithmetic. *)
Definition s32 (x : Z) : Z := (x + 2 ^ 31) mod 2 ^ 32 - 2 ^ 31.

End bitops.

(** ** Constants of headers that the driver includes *)

Module mipi_display.

(** Modelled from the spec: video/mipi_display.h is not part of the driver
    file; the spec calls these the controller's addressing-mode register
    and its standard display-off and display-on commands.  The values are
    the MIPI DCS opcodes; [init_display] writes the same 0x36 and 0x29 as
    literals. *)
Definition MIPI_DCS_SET_ADDRESS_MODE : Z := 0x36.
Definition MIPI_DCS_SET_DISPLAY_OFF : Z := 0x28.
Definition MIPI_DCS_SET_DISPLAY_ON : Z := 0x29.

End mipi_display.

Module errno.

(** Modelled from the spec: the invalid-argument error number of
    asm-generic/errno-base.h, which the driver returns negated. *)
Definition EINVAL : Z := 22.

End errno.

(** ** The host framework as the driver sees it (fbtft.h) *)

Module fbtft.

(** Modelled from the spec: the variable screen info of the device context
    ([struct fb_var_screeninfo], declared outside the driver file),
    restricted to what the driver reads: the requested resolution and the
    rotation angle, all [__u32]. *)
Record fb_var_screeninfo : Type := {
  xres : Z;
  yres : Z;
  rotate : Z;
}.

Record fb_info : Type := { var : fb_var_screeninfo }.

(** Modelled from the spec: the shape of the gamma buffer as the device
    context records it ([par->gamma] of fbtft.h): curves and values per
    curve, both [int]. *)
Record gamma_par : Type := {
  num_values : Z;
  num_curves : Z;
}.

(** Modelled from the spec: the device context ([struct fbtft_par] of
    fbtft.h), restricted to what the driver reads: screen info, the
    colour-order flag and the gamma shape. *)
Record fbtft_par : Type := {
  info : fb_info;
  bgr : bool;
  gamma : gamma_par;
}.

(** What a host service does to the outside world. *)
Inductive event : Type :=
| Reset
| Mdelay (ms : Z)
| WriteReg (cmd : Z) (params : list Z).

(** An array index used by the code. *)
Inductive access : Type :=
| MaskRead (j : Z)
| CurveRead (k : Z)
| CurveWrite (k : Z).

(** [bus]: the host-service calls so far, oldest first.  [curves]: the
    caller's gamma buffer ([u32 *curves]).  [accesses]: every index into
    the mask table or the gamma buffer so far, oldest first. *)
Record machine : Type := {
  bus : list event;
  curves : list Z;
  accesses : list access;
}.

(** A callback is a state transformer that may go wrong; [None] stands for
    an array access outside its object. *)
Definition M (A : Type) : Type := machine -> option (A * machine).

Definition ret {A} (a : A) : M A := fun st => Some (a, st).

Definition bind {A B} (c : M A) (k : A -> M B) : M B :=
  fun st => match c st with
            | Some (a, st') => k a st'
            | None => None
            end.

Definition fail {A} : M A := fun _ => None.

Definition emit (e : event) : M unit :=
  fun st => Some (tt, {| bus := bus st ++ [e];
                         curves := curves st;
                         accesses := accesses st |}).

Definition touch (a : access) : M unit :=
  fun st => Some (tt, {| bus := bus st;
                         curves := curves st;
                         accesses := accesses st ++ [a] |}).

(** Modelled from the spec: the register-write primitive (the [write_reg]
    macro of fbtft.h) hands one command and its parameter list to the
    host transport. *)
Definition write_reg (cmd : Z) (params : list Z) : M unit :=
  emit (WriteReg cmd params).

(** Modelled from the spec: the millisecond delay primitive ([mdelay] of
    linux/delay.h), an unconditional wait. *)
Definition mdelay (ms : Z) : M unit := emit (Mdelay ms).

(** Modelled from the spec: the reset-line toggle of the framework
    ([par->fbtftops.reset]). *)
Definition reset : M unit := emit Reset.

(** Modelled from the spec: on the bus a register write is one command
    byte followed by one byte per parameter, so a register of [regwidth]
    bits keeps the low [regwidth] bits of each argument. *)
Definition wire (regwidth : Z) (e : event) : list Z :=
  match e with
  | WriteReg cmd params => map (bitops.wrap regwidth) (cmd :: params)
  | _ => []
  end.

(** A window coordinate as the two bytes [set_var] sends for it spell it:
    a high byte followed by a low byte. *)
Definition coordinate (hi lo : Z) : Z := hi * 256 + lo.

(** Modelled from the spec: the table of callback references
    ([struct fbtft_ops] of fbtft.h), restricted to the four hooks of a panel
    driver; a hook left out of the initializer is a null pointer. *)
Module ops.
Record fbtft_ops : Type := {
  init_display : option (fbtft_par -> M Z);
  set_var : option (fbtft_par -> M Z);
  set_gamma : option (fbtft_par -> M Z);
  blank : option (fbtft_par -> bool -> M Z);
}.
End ops.

(** Modelled from the spec: the panel descriptor type
    ([struct fbtft_display] of fbtft.h); [gamma] is a [char *], null when
    left out of the initializer. *)
Module disp.
Record fbtft_display : Type := {
  regwidth : Z;
  width : Z;
  height : Z;
  buswidth : Z;
  gamma_num : Z;
  gamma_len : Z;
  gamma : option string;
  fbtftops : ops.fbtft_ops;
}.
End disp.

End fbtft.

Declare Scope fbtft_scope.
Delimit Scope fbtft_scope with fbtft.
Notation "x <- c ;; k" := (fbtft.bind c (fun x => k))
  (at level 100, c at next level, right associativity) : fbtft_scope.
Notation "c ;; k" := (fbtft.bind c (fun _ => k))
  (at level 100, right associativity) : fbtft_scope.

(** ** C statements *)

Module cstmt.
Import fbtft.
Local Open Scope fbtft_scope.

(** [a[k]] on an array of [length a] elements: defined for
    [0 <= k < length a] only. *)
Definition index {A} (a : list A) (k : Z) : option A :=
  if 0 <=? k then a !! Z.to_nat k else None.

(** [count] rounds of a loop body whose counter starts at [i] and is
    incremented after each round. *)
Fixpoint rounds (count : nat) (i : Z) (body : Z -> M unit) : M unit :=
  match count with
  | O => ret tt
  | S count' => body i ;; rounds count' (i + 1) body
  end.

(** [for (i = 0; i < n; i++) body], where the body leaves [i] and [n]
    alone: [n] rounds, none when [n <= 0]. *)
Definition for_upto (n : Z) (body : Z -> M unit) : M unit :=
  rounds (Z.to_nat n) 0 body.

(** The values of a list of expressions, evaluated left to right. *)
Fixpoint eval_all {A B} (f : A -> M B) (l : list A) : M (list B) :=
  match l with
  | [] => ret []
  | a :: l' => b <- f a ;; bs <- eval_all f l' ;; ret (b :: bs)
  end.

End cstmt.

(** ** fb_st7789v.c *)

Module fb_st7789v.
Import bitops mipi_display errno fbtft cstmt.
Local Open Scope fbtft_scope.

Definition newline : string := String (ascii_of_nat 10) EmptyString.

Definition DEFAULT_GAMMA : string :=
  ("70 2C 2E 15 10 09 48 33 53 0B 19 18 20 25" ++ newline ++
   "70 2C 2E 15 10 09 48 33 53 0B 19 18 20 25")%string.

Definition HSD20_IPS_GAMMA : string :=
  ("D0 05 0A 09 08 05 2E 44 45 0F 17 16 2B 33" ++ newline ++
   "D0 05 0A 09 08 05 2E 43 45 0F 16 16 2B 33")%string.

Definition HSD20_IPS : Z := 1.

(** [enum st7789v_command] *)
Definition PORCTRL : Z := 0xB2.
Definition GCTRL : Z := 0xB7.
Definition VCOMS : Z := 0xBB.
Definition VDVVRHEN : Z := 0xC2.
Definition VRHS : Z := 0xC3.
Definition VDVS : Z := 0xC4.
Definition VCMOFSET : Z := 0xC5.
Definition PWCTRL1 : Z := 0xD0.
Definition PVGAMCTRL : Z := 0xE0.
Definition NVGAMCTRL : Z := 0xE1.

Definition MADCTL_BGR : Z := BIT 3.
Definition MADCTL_MV : Z := BIT 5.
Definition MADCTL_MX : Z := BIT 6.
Definition MADCTL_MY : Z := BIT 7.

(** [init_display()], lines 83-107. *)
Definition init_display (par : fbtft_par) : M Z :=
  reset ;;
  mdelay 50 ;;
  write_reg 0x36 [0x00] ;;
  write_reg 0x3A [0x05] ;;
  write_reg 0xB2 [0x0B; 0x0B; 0x00; 0x33; 0x35] ;;
  write_reg 0xB7 [0x11] ;;
  write_reg 0xBB [0x35] ;;
  write_reg 0xC0 [0x2C] ;;
  write_reg 0xC2 [0x01] ;;
  write_reg 0xC3 [0x0D] ;;
  write_reg 0xC4 [0x20] ;;
  write_reg 0xC6 [0x13] ;;
  write_reg 0xD0 [0xA4; 0xA1] ;;
  write_reg 0xE0 [0xF0; 0x06; 0x0B; 0x0A; 0x09; 0x26; 0x29;
                  0x33; 0x41; 0x18; 0x16; 0x15; 0x29; 0x2D] ;;
  write_reg 0xE1 [0xF0; 0x04; 0x08; 0x08; 0x07; 0x03; 0x28;
                  0x32; 0x40; 0x3B; 0x19; 0x18; 0x2A; 0x2E] ;;
  write_reg 0xE4 [0x25; 0x00; 0x00] ;;
  write_reg 0x21 [] ;;
  write_reg 0x11 [] ;;
  mdelay 120 ;;
  write_reg 0x29 [] ;;
  mdelay 200 ;;
  ret 0.

(** [set_var()], lines 118-157: the locals [(madctl_par, xoffset,
    yoffset)] ([u8], [u16], [u16]) when the switch is left through a
    [break]; [None] when it is left through [default]. *)
Definition set_var_switch (par : fbtft_par) : option (Z * Z * Z) :=
  let madctl_par := 0 in
  let madctl_par :=
    if bgr par then u8 (Z.lor madctl_par MADCTL_BGR) else madctl_par in
  let r := rotate (var (info par)) in
  if r =? 0 then
    Some (madctl_par, u16 0, u16 20)
  else if r =? 90 then
    Some (u8 (Z.lor madctl_par (Z.lor MADCTL_MV MADCTL_MY)), u16 20, u16 0)
  else if r =? 180 then
    Some (u8 (Z.lor madctl_par (Z.lor MADCTL_MX MADCTL_MY)), u16 0, u16 0)
  else if r =? 270 then
    Some (u8 (Z.lor madctl_par (Z.lor MADCTL_MV MADCTL_MX)), u16 0, u16 20)
  else
    None.

(** [set_var()], lines 116-170.  The two end coordinates are computed in
    [unsigned int], the type of [xres] and [yres]. *)
Definition set_var (par : fbtft_par) : M Z :=
  match set_var_switch par with
  | None => ret (- EINVAL)
  | Some (madctl_par, xoffset, yoffset) =>
      write_reg MIPI_DCS_SET_ADDRESS_MODE [madctl_par] ;;
      write_reg 0x2A [0x00; xoffset;
                      0x00; u32 (xoffset + xres (var (info par)) - 1)] ;;
      write_reg 0x2B [0x00; yoffset;
                      0x00; u32 (yoffset + yres (var (info par)) - 1)] ;;
      ret 0
  end.

(** The function-local table of [set_gamma()], lines 197-212. *)
Definition gamma_par_mask : list Z :=
  [0xFF; 0x3F; 0x3F; 0x1F; 0x1F; 0x3F; 0x7F;
   0x77; 0x7F; 0x3F; 0x1F; 0x1F; 0x3F; 0x3F].

(** [gamma_par_mask[j]] as a value. *)
Definition mask_at (j : Z) : M Z :=
  touch (MaskRead j) ;;
  match index gamma_par_mask j with
  | Some m => ret m
  | None => fail
  end.

(** [curves[k]] as a value. *)
Definition curve_at (k : Z) : M Z :=
  touch (CurveRead k) ;;
  fun st => match index (curves st) k with
            | Some v => Some (v, st)
            | None => None
            end.

(** [curves[k] = v]. *)
Definition curve_set (k : Z) (v : Z) : M unit :=
  touch (CurveWrite k) ;;
  fun st => match index (curves st) k with
            | Some _ => Some (tt, {| bus := bus st;
                                     curves := <[Z.to_nat k := v]> (curves st);
                                     accesses := accesses st |})
            | None => None
            end.

(** [curves[k] &= gamma_par_mask[j]], line 217. *)
Definition mask_curve (k j : Z) : M unit :=
  m <- mask_at j ;;
  v <- curve_at k ;;
  curve_set k (u32 (Z.land v m)).

(** The body of the outer loop of [set_gamma()], lines 215-223, for the
    curve [i]. *)
Definition set_gamma_curve (par : fbtft_par) (i : Z) : M unit :=
  let c := s32 (i * num_values (gamma par)) in
  for_upto (num_values (gamma par)) (fun j =>
    mask_curve (s32 (c + j)) j) ;;
  args <- eval_all (fun n => curve_at (s32 (c + n)))
                   [0; 1; 2; 3; 4; 5; 6; 7; 8; 9; 10; 11; 12; 13] ;;
  write_reg (s32 (PVGAMCTRL + i)) args.

(** [set_gamma()], lines 186-226.  [curves] is the buffer of the
    machine. *)
Definition set_gamma (par : fbtft_par) : M Z :=
  for_upto (num_curves (gamma par)) (set_gamma_curve par) ;;
  ret 0.

(** [blank()], lines 236-243. *)
Definition blank (par : fbtft_par) (on : bool) : M Z :=
  (if on
   then write_reg MIPI_DCS_SET_DISPLAY_OFF []
   else write_reg MIPI_DCS_SET_DISPLAY_ON []) ;;
  ret 0.

(** The descriptor, lines 245-259.  The [.gamma] and [.set_gamma] lines
    are commented out in the source, which leaves both members null. *)
Definition display : disp.fbtft_display := {|
  disp.regwidth := 8;
  disp.width := 240;
  disp.height := 280;
  disp.buswidth := 8;
  disp.gamma_num := 0;
  disp.gamma_len := 0;
  disp.gamma := None;
  disp.fbtftops := {|
    ops.init_display := Some init_display;
    ops.set_var := Some set_var;
    ops.set_gamma := None;
    ops.blank := Some blank;
  |};
|}.

End fb_st7789v.

(** ** What the claims are stated with *)

Import bitops mipi_display errno fbtft cstmt fb_st7789v.
Local Open Scope fbtft_scope.

(** The machine [st] after the host-service calls [es] and nothing else. *)
Definition emitted (st : machine) (es : list event) : machine :=
  {| bus := bus st ++ es; curves := curves st; accesses := accesses st |}.

(** A device context with the given rotation, resolution and colour
    order. *)
Definition context (r x y : Z) (b : bool) (nc nv : Z) : fbtft_par :=
  {| info := {| var := {| xres := x; yres := y; rotate := r |} |};
     bgr := b;
     gamma := {| num_values := nv; num_curves := nc |} |}.

(** A machine on which nothing has happened yet, holding the buffer
    [buf]. *)
Definition fresh (buf : list Z) : machine :=
  {| bus := []; curves := buf; accesses := [] |}.

(** The four angles the switch of [set_var] knows. *)
Definition supported (r : Z) : Prop :=
  r = 0 \/ r = 90 \/ r = 180 \/ r = 270.

(** The table of the specification, section 8: for each supported angle
    whether MV, MX and MY are set, then xoffset and yoffset. *)
Definition spec_rotation_table (r : Z) : option (bool * bool * bool * Z * Z) :=
  if r =? 0 then Some (false, false, false, 0, 20)
  else if r =? 90 then Some (true, false, true, 20, 0)
  else if r =? 180 then Some (false, true, true, 0, 0)
  else if r =? 270 then Some (true, true, false, 0, 20)
  else None.

(** No register write is directly followed by another register write. *)
Fixpoint delay_between_writes (es : list event) : bool :=
  match es with
  | [] => true
  | WriteReg _ _ :: es' =>
      match es' with
      | WriteReg _ _ :: _ => false
      | _ => delay_between_writes es'
      end
  | _ :: es' => delay_between_writes es'
  end.

(** The commands of the register writes of a trace, in order. *)
Definition commands (es : list event) : list Z :=
  flat_map (fun e => match e with WriteReg c _ => [c] | _ => [] end) es.

(** The delays of a trace, in order. *)
Definition delays (es : list event) : list Z :=
  flat_map (fun e => match e with Mdelay ms => [ms] | _ => [] end) es.



(** The trace of [init_display]: reset, 50 ms, sixteen register writes
    back to back ending in sleep-out, 120 ms, display-on, 200 ms. *)
Definition init_trace : list event :=
  [Reset; Mdelay 50;
   WriteReg 0x36 [0x00];
   WriteReg 0x3A [0x05];
   WriteReg 0xB2 [0x0B; 0x0B; 0x00; 0x33; 0x35];
   WriteReg 0xB7 [0x11];
   WriteReg 0xBB [0x35];
   WriteReg 0xC0 [0x2C];
   WriteReg 0xC2 [0x01];
   WriteReg 0xC3 [0x0D];
   WriteReg 0xC4 [0x20];
   WriteReg 0xC6 [0x13];
   WriteReg 0xD0 [0xA4; 0xA1];
   WriteReg 0xE0 [0xF0; 0x06; 0x0B; 0x0A; 0x09; 0x26; 0x29;
                  0x33; 0x41; 0x18; 0x16; 0x15; 0x29; 0x2D];
   WriteReg 0xE1 [0xF0; 0x04; 0x08; 0x08; 0x07; 0x03; 0x28;
                  0x32; 0x40; 0x3B; 0x19; 0x18; 0x2A; 0x2E];
   WriteReg 0xE4 [0x25; 0x00; 0x00];
   WriteReg 0x21 [];
   WriteReg 0x11 [];
   Mdelay 120;
   WriteReg 0x29 [];
   Mdelay 200].

(** The fields of a text, cut at each occurrence of [sep]. *)
Fixpoint fields (sep : ascii) (s : string) : list string :=
  match s with
  | EmptyString => [EmptyString]
  | String c s' =>
      if Ascii.eqb c sep then EmptyString :: fields sep s'
      else match fields sep s' with
           | f :: fs => String c f :: fs
           | [] => [String c EmptyString]
           end
  end.

Definition hex_digit (c : ascii) : bool :=
  let n := nat_of_ascii c in
  ((48 <=? n) && (n <=? 57) || (65 <=? n) && (n <=? 70))%nat.

(** A two-digit upper-case hexadecimal number. *)
Definition hex_byte (s : string) : bool :=
  match s with
  | String a (String b EmptyString) => hex_digit a && hex_digit b
  | _ => false
  end.

(** The rows of a gamma text: lines, each cut at the blanks. *)
Definition gamma_rows (s : string) : list (list string) :=
  map (fields " "%char) (fields (ascii_of_nat 10) s).

(** A gamma text of [rows] rows of [cols] hexadecimal bytes each. *)
Definition gamma_text_shape (rows cols : nat) (s : string) : bool :=
  (length (gamma_rows s) =? rows)%nat &&
  forallb (fun row => (length row =? cols)%nat && forallb hex_byte row)
          (gamma_rows s).

(** The mask of the column [j] of a gamma curve; 0 outside the table. *)
Definition column_mask (j : Z) : Z := default 0 (index gamma_par_mask j).

(** The element [k] of a buffer; 0 outside it. *)
Definition value_at (buf : list Z) (k : Z) : Z := default 0 (index buf k).

(** The buffer of [s] is the buffer of [st] with every element below the
    index [n] ANDed with the mask of its column, the columns being counted
    modulo [nv]; the elements from [n] on are those of [st]. *)
Definition masked_below (nv : Z) (st s : machine) (n : Z) : Prop :=
  length (curves s) = length (curves st) /\
  forall k v,
    index (curves st) k = Some v ->
    index (curves s) k =
      Some (if k <? n then Z.land v (column_mask (k mod nv)) else v).

(** The register write of the curve [i] when the buffer was [buf] at the
    call: the first [nv] parameters are masked, the rest of the fourteen
    are taken from the buffer as they stand. *)
Definition gamma_write (nv : Z) (buf : list Z) (i : Z) : event :=
  WriteReg (s32 (PVGAMCTRL + i))
    (map (fun n => if n <? nv
                   then Z.land (value_at buf (i * nv + n)) (column_mask n)
                   else value_at buf (i * nv + n))
         [0; 1; 2; 3; 4; 5; 6; 7; 8; 9; 10; 11; 12; 13]).

(** The parameters of the last write of the command [cmd] in a trace:
    what the register holds afterwards. *)
Fixpoint last_params (cmd : Z) (es : list event) : option (list Z) :=
  match es with
  | [] => None
  | e :: es' =>
      match last_params cmd es' with
      | Some ps => Some ps
      | None =>
          match e with
          | WriteReg c ps => if c =? cmd then Some ps else None
          | _ => None
          end
      end
  end.

(** The command that [blank] issues for its argument. *)
Definition blank_command (on : bool) : event :=
  WriteReg (if on then MIPI_DCS_SET_DISPLAY_OFF else MIPI_DCS_SET_DISPLAY_ON) [].

(** ** Arithmetic of the fixed-width types *)

Lemma u8_u32 (x : Z) : u8 (u32 x) = x mod 256.
Proof.
  unfold u8, u32, wrap.
  change 256 with (2 ^ 8). apply Z.mod_mod_divide.
  exists (2 ^ 24). reflexivity.
Qed.

Lemma u8_small (x : Z) : 0 <= x < 256 -> u8 x = x.
Proof. intros H. unfold u8, wrap. apply Z.mod_small. exact H. Qed.

(** Splits a goal about [set_var] along the angle of a supported context. *)
Ltac by_rotation par H :=
  destruct par as [[[x y r]] b g]; cbn in H;
  destruct H as [-> | [-> | [-> | ->]]].

(** ** Running the monad *)

Lemma emitted_emitted (st : machine) (es es' : list event) :
  emitted (emitted st es) es' = emitted st (es ++ es').
Proof. unfold emitted. cbn. rewrite <- app_assoc. reflexivity. Qed.

Lemma run_emit {A} (e : event) (k : unit -> M A) (st : machine) :
  bind (emit e) k st = k tt (emitted st [e]).
Proof. reflexivity. Qed.

Lemma run_emit_emitted {A} (e : event) (k : unit -> M A) (st : machine)
      (es : list event) :
  bind (emit e) k (emitted st es) = k tt (emitted st (es ++ [e])).
Proof. rewrite run_emit, emitted_emitted. reflexivity. Qed.

(** Runs a straight line of host-service calls from the machine [st]. *)
Ltac run_services :=
  unfold write_reg, mdelay, reset;
  rewrite run_emit; repeat rewrite run_emit_emitted;
  cbn [app]; unfold ret.

(** ** Orientation: [set_var] *)

(** Past the switch, [set_var] writes the addressing mode and the two
    windows and returns 0. *)
Lemma set_var_writes (par : fbtft_par) (st : machine) (m xo yo : Z) :
  set_var_switch par = Some (m, xo, yo) ->
  set_var par st =
    Some (0, emitted st
               [WriteReg MIPI_DCS_SET_ADDRESS_MODE [m];
                WriteReg 0x2A [0; xo; 0; u32 (xo + xres (var (info par)) - 1)];
                WriteReg 0x2B [0; yo; 0; u32 (yo + yres (var (info par)) - 1)]]).
Proof.
  intros H. unfold set_var. rewrite H. run_services. reflexivity.
Qed.

(** The switch at each supported angle. *)
Lemma set_var_switch_supported (par : fbtft_par) :
  supported (rotate (var (info par))) ->
  let b := if bgr par then MADCTL_BGR else 0 in
  set_var_switch par =
    Some (if rotate (var (info par)) =? 0 then (b, 0, 20)
          else if rotate (var (info par)) =? 90
               then (Z.lor b (Z.lor MADCTL_MV MADCTL_MY), 20, 0)
          else if rotate (var (info par)) =? 180
               then (Z.lor b (Z.lor MADCTL_MX MADCTL_MY), 0, 0)
          else (Z.lor b (Z.lor MADCTL_MV MADCTL_MX), 0, 20)).
Proof.
  intros H. by_rotation par H; destruct b; reflexivity.
Qed.

(** C1: for each of the angles 0, 90, 180 and 270, the locals that
    [set_var] computes are those of the specification's table (0: none of
    MV, MX, MY, xoffset 0, yoffset 20; 90: MV and MY, xoffset 20, yoffset 0;
    180: MX and MY, offsets 0 and 0; 270: MV and MX, xoffset 0, yoffset 20),
    no bit other than BGR, MV, MX and MY is ever set, the BGR bit follows
    the colour-order flag, and the call writes that byte to the
    addressing-mode register and these offsets as the window starts. *)
Theorem C1_set_var_rotation_table :
  forall (par : fbtft_par) (st : machine) (mv mx my : bool) (xo yo : Z),
    spec_rotation_table (rotate (var (info par))) = Some (mv, mx, my, xo, yo) ->
    exists m : Z,
      set_var_switch par = Some (m, xo, yo) /\
      Z.testbit m 5 = mv /\ Z.testbit m 6 = mx /\ Z.testbit m 7 = my /\
      Z.testbit m 3 = bgr par /\
      Z.land m (Z.lnot (Z.lor MADCTL_BGR
                 (Z.lor MADCTL_MV (Z.lor MADCTL_MX MADCTL_MY)))) = 0 /\
      set_var par st =
        Some (0, emitted st
                   [WriteReg MIPI_DCS_SET_ADDRESS_MODE [m];
                    WriteReg 0x2A [0; xo; 0; u32 (xo + xres (var (info par)) - 1)];
                    WriteReg 0x2B [0; yo; 0; u32 (yo + yres (var (info par)) - 1)]]).
Proof.
  intros [[[x y r]] b g] st mv mx my xo yo. cbn [rotate var info xres yres bgr].
  unfold spec_rotation_table.
  destruct (Z.eqb_spec r 0) as [-> | _];
    [| destruct (Z.eqb_spec r 90) as [-> | _];
       [| destruct (Z.eqb_spec r 180) as [-> | _];
          [| destruct (Z.eqb_spec r 270) as [-> | _]; [| discriminate]]]];
    intros [= <- <- <- <- <-]; destruct b;
    (eexists; split; [reflexivity |]); repeat split;
    apply set_var_writes; reflexivity.
Qed.

Lemma C1_set_var_rotation_table_witness :
  exists m : Z,
    set_var_switch (context 90 280 240 true 0 0) = Some (m, 20, 0) /\
    Z.testbit m 5 = true /\ Z.testbit m 6 = false /\ Z.testbit m 7 = true /\
    Z.testbit m 3 = true /\
    Z.land m (Z.lnot (Z.lor MADCTL_BGR
               (Z.lor MADCTL_MV (Z.lor MADCTL_MX MADCTL_MY)))) = 0 /\
    set_var (context 90 280 240 true 0 0) (fresh []) =
      Some (0, emitted (fresh [])
                 [WriteReg MIPI_DCS_SET_ADDRESS_MODE [m];
                  WriteReg 0x2A [0; 20; 0; u32 (20 + 280 - 1)];
                  WriteReg 0x2B [0; 0; 0; u32 (0 + 240 - 1)]]).
Proof.
  apply (C1_set_var_rotation_table (context 90 280 240 true 0 0) (fresh [])
           true false true 20 0).
  reflexivity.
Defined.

(** C2: for every rotation other than 0, 90, 180 and 270, [set_var]
    returns [-EINVAL], a negative status, and leaves the machine as it
    found it: nothing is written to a register. *)
Theorem C2_set_var_rejects_unsupported :
  forall (par : fbtft_par) (st : machine),
    ~ supported (rotate (var (info par))) ->
    set_var par st = Some (- EINVAL, st) /\ - EINVAL < 0.
Proof.
  intros [[[x y r]] b g] st. unfold supported. cbn [rotate var info].
  intros Hr. split; [| reflexivity].
  unfold set_var, set_var_switch. cbn [rotate var info bgr].
  destruct (Z.eqb_spec r 0); [tauto |].
  destruct (Z.eqb_spec r 90); [tauto |].
  destruct (Z.eqb_spec r 180); [tauto |].
  destruct (Z.eqb_spec r 270); [tauto |].
  reflexivity.
Qed.

Lemma C2_set_var_rejects_unsupported_witness :
  set_var (context 45 240 280 true 0 0) (fresh []) = Some (- EINVAL, fresh []) /\
  - EINVAL < 0.
Proof.
  apply (C2_set_var_rejects_unsupported (context 45 240 280 true 0 0) (fresh [])).
  unfold supported. cbn. lia.
Defined.

(** C6: for each of the four supported angles, when the colour-order flag
    is set, the byte that [set_var] writes to the addressing-mode register
    has the BGR bit set, on the call and on the wire. *)
Theorem C6_set_var_bgr_bit :
  forall (par : fbtft_par) (st : machine),
    supported (rotate (var (info par))) ->
    bgr par = true ->
    exists (m : Z) (caset raset : event),
      set_var par st =
        Some (0, emitted st [WriteReg MIPI_DCS_SET_ADDRESS_MODE [m]; caset; raset]) /\
      Z.testbit m 3 = true /\
      Z.land m MADCTL_BGR = MADCTL_BGR /\
      wire (disp.regwidth display) (WriteReg MIPI_DCS_SET_ADDRESS_MODE [m]) =
        [MIPI_DCS_SET_ADDRESS_MODE; m].
Proof.
  intros par st H Hb. by_rotation par H; cbn in Hb; subst b;
    (do 3 eexists; split; [apply set_var_writes; reflexivity |]);
    repeat split; reflexivity.
Qed.

Lemma C6_set_var_bgr_bit_witness :
  exists (m : Z) (caset raset : event),
    set_var (context 180 240 280 true 0 0) (fresh []) =
      Some (0, emitted (fresh [])
                 [WriteReg MIPI_DCS_SET_ADDRESS_MODE [m]; caset; raset]) /\
    Z.testbit m 3 = true /\
    Z.land m MADCTL_BGR = MADCTL_BGR /\
    wire (disp.regwidth display) (WriteReg MIPI_DCS_SET_ADDRESS_MODE [m]) =
      [MIPI_DCS_SET_ADDRESS_MODE; m].
Proof.
  apply (C6_set_var_bgr_bit (context 180 240 280 true 0 0) (fresh [])).
  - unfold supported. cbn. lia.
  - reflexivity.
Defined.

(** C9: for each supported angle, each of the two window writes of
    [set_var] puts on the wire the command, then for the start and for the
    end coordinate a high byte 0x00 followed by the computed coordinate
    modulo 256; so an end coordinate of 256 or more never arrives: the
    coordinate that the two bytes spell is below 256. *)
Theorem C9_window_bytes :
  forall (par : fbtft_par) (st : machine),
    supported (rotate (var (info par))) ->
    exists (m xo yo : Z) (madctl caset raset : event),
      set_var_switch par = Some (m, xo, yo) /\
      set_var par st = Some (0, emitted st [madctl; caset; raset]) /\
      wire (disp.regwidth display) caset =
        [0x2A; 0x00; xo mod 256;
               0x00; (xo + xres (var (info par)) - 1) mod 256] /\
      wire (disp.regwidth display) raset =
        [0x2B; 0x00; yo mod 256;
               0x00; (yo + yres (var (info par)) - 1) mod 256] /\
      (forall cmd hs ls he le,
          wire (disp.regwidth display) caset = [cmd; hs; ls; he; le] \/
          wire (disp.regwidth display) raset = [cmd; hs; ls; he; le] ->
          hs = 0 /\ he = 0 /\
          0 <= coordinate hs ls < 256 /\ 0 <= coordinate he le < 256).
Proof.
  intros par st H.
  pose proof (set_var_switch_supported par H) as Hs. cbn zeta in Hs.
  match type of Hs with _ = Some ?t =>
    destruct t as [[m xo] yo] eqn:Ht end.
  exists m, xo, yo. do 3 eexists.
  split; [exact Hs |].
  split; [apply set_var_writes; exact Hs |].
  assert (W : forall c a b,
             wire (disp.regwidth display) (WriteReg c [0; a; 0; u32 b]) =
             [c mod 256; 0; a mod 256; 0; b mod 256]).
  { intros c a b. cbn. f_equal. f_equal. f_equal. f_equal. f_equal.
    apply u8_u32. }
  rewrite !W. change (42 mod 256) with 42. change (43 mod 256) with 43.
  split; [reflexivity |]. split; [reflexivity |].
  intros cmd hs ls he le [[= _ <- <- <- <-] | [= _ <- <- <- <-]];
    unfold coordinate;
    repeat split; try reflexivity;
    try (apply Z.mod_pos_bound; lia);
    apply Z.mod_pos_bound; lia.
Qed.

Lemma C9_window_bytes_witness :
  exists (m xo yo : Z) (madctl caset raset : event),
    set_var_switch (context 90 280 240 false 0 0) = Some (m, xo, yo) /\
    set_var (context 90 280 240 false 0 0) (fresh []) =
      Some (0, emitted (fresh []) [madctl; caset; raset]) /\
    wire (disp.regwidth display) caset =
      [0x2A; 0x00; xo mod 256; 0x00; (xo + 280 - 1) mod 256] /\
    wire (disp.regwidth display) raset =
      [0x2B; 0x00; yo mod 256; 0x00; (yo + 240 - 1) mod 256] /\
    (forall cmd hs ls he le,
        wire (disp.regwidth display) caset = [cmd; hs; ls; he; le] \/
        wire (disp.regwidth display) raset = [cmd; hs; ls; he; le] ->
        hs = 0 /\ he = 0 /\
        0 <= coordinate hs ls < 256 /\ 0 <= coordinate he le < 256).
Proof.
  apply (C9_window_bytes (context 90 280 240 false 0 0) (fresh [])).
  unfold supported. cbn. lia.
Defined.

(** The example of C9: at 90 degrees with [xres = 280] the column window
    should end at 299; the wire carries 0x00 and 43. *)
Example window_end_299_on_the_wire :
  exists madctl raset,
    set_var (context 90 280 240 false 0 0) (fresh []) =
      Some (0, emitted (fresh [])
                 [madctl; WriteReg 0x2A [0; 20; 0; 299]; raset]) /\
    wire (disp.regwidth display) (WriteReg 0x2A [0; 20; 0; 299]) =
      [0x2A; 0x00; 20; 0x00; 43].
Proof. do 2 eexists. split; reflexivity. Qed.

(** Where the window does arrive: an end coordinate that fits a byte is
    spelled on the wire as computed. *)
Lemma window_end_that_fits (off res : Z) :
  0 <= off + res - 1 < 256 ->
  wire (disp.regwidth display) (WriteReg 0x2A [0; off; 0; u32 (off + res - 1)]) =
    [0x2A; 0; off mod 256; 0; off + res - 1] /\
  coordinate 0 (off + res - 1) = off + res - 1.
Proof.
  intros H. split; [| reflexivity].
  cbn. do 5 f_equal.
  transitivity ((off + res - 1) mod 256);
    [apply u8_u32 | apply Z.mod_small; exact H].
Qed.

(** C5, at the panel's own geometry (rotation 0, 240 columns, 280 rows):
    the row window should be [20, 299]; the call passes 299 as one
    parameter behind a constant high byte 0, and the four bytes on the wire
    spell the rows [20, 43]. The column window [0, 239] fits a byte and
    arrives whole. *)
Theorem C5_row_window_at_native_geometry :
  exists madctl : event,
    set_var (context 0 (disp.width display) (disp.height display) false 0 0)
            (fresh []) =
      Some (0, emitted (fresh [])
                 [madctl;
                  WriteReg 0x2A [0; 0; 0; 239];
                  WriteReg 0x2B [0; 20; 0; 299]]) /\
    wire (disp.regwidth display) (WriteReg 0x2A [0; 0; 0; 239]) =
      [0x2A; 0; 0; 0; 239] /\
    wire (disp.regwidth display) (WriteReg 0x2B [0; 20; 0; 299]) =
      [0x2B; 0; 20; 0; 43] /\
    coordinate 0 20 = 20 /\
    coordinate 0 43 = 43 /\
    20 + disp.height display - 1 = 299 /\
    coordinate 0 43 <> 20 + disp.height display - 1.
Proof.
  eexists. repeat split; try reflexivity. discriminate.
Qed.

(** ** Blanking: [blank] *)

(** C7: [blank] with [true] issues the display-off command and nothing
    else, [blank] with [false] issues the display-on command and nothing
    else; each is one command without parameters, one byte on the wire; the
    two commands differ; both calls return 0 and touch nothing but the
    bus. *)
Theorem C7_blank :
  forall (par : fbtft_par) (st : machine),
    blank par true st =
      Some (0, emitted st [WriteReg MIPI_DCS_SET_DISPLAY_OFF []]) /\
    blank par false st =
      Some (0, emitted st [WriteReg MIPI_DCS_SET_DISPLAY_ON []]) /\
    MIPI_DCS_SET_DISPLAY_OFF <> MIPI_DCS_SET_DISPLAY_ON /\
    wire (disp.regwidth display) (WriteReg MIPI_DCS_SET_DISPLAY_OFF []) =
      [MIPI_DCS_SET_DISPLAY_OFF] /\
    wire (disp.regwidth display) (WriteReg MIPI_DCS_SET_DISPLAY_ON []) =
      [MIPI_DCS_SET_DISPLAY_ON].
Proof.
  intros par st. repeat split; try reflexivity. discriminate.
Qed.

(** ** Initialization: [init_display] *)

Lemma init_display_run (par : fbtft_par) (st : machine) :
  init_display par st = Some (0, emitted st init_trace).
Proof. unfold init_display. run_services. reflexivity. Qed.

(** C3, as stated, fails: the first two register writes of
    [init_display] (0x36 and 0x3A) follow each other with no delay between
    them. *)
Lemma C3_writes_without_delay :
  exists (before after : list event) (p q : list Z),
    init_display (context 0 240 280 false 0 0) (fresh []) =
      Some (0, emitted (fresh [])
                 (before ++ WriteReg 0x36 p :: WriteReg 0x3A q :: after)) /\
    delay_between_writes
      (before ++ WriteReg 0x36 p :: WriteReg 0x3A q :: after) = false.
Proof.
  exists (firstn 2 init_trace), (skipn 4 init_trace), [0x00], [0x05].
  split; [apply (init_display_run _ (fresh [])) | reflexivity].
Qed.

(** C3, amended: for every device context and machine, [init_display]
    returns 0 and adds to the bus exactly: the reset, a 50 ms delay, the
    seventeen register writes in the order 36 3A B2 B7 BB C0 C2 C3 C4 C6 D0
    E0 E1 E4 21 11 29 with their parameters as listed, with one 120 ms
    delay between sleep-out (0x11) and display-on (0x29) and one 200 ms
    delay at the end; the other writes follow each other directly. Every
    byte fits the 8-bit register, so the wire carries the writes as
    called. *)
Theorem C3_init_display_trace :
  forall (par : fbtft_par) (st : machine),
    init_display par st = Some (0, emitted st init_trace) /\
    commands init_trace =
      [0x36; 0x3A; 0xB2; 0xB7; 0xBB; 0xC0; 0xC2; 0xC3; 0xC4; 0xC6; 0xD0;
       0xE0; 0xE1; 0xE4; 0x21; 0x11; 0x29] /\
    delays init_trace = [50; 120; 200] /\
    (exists writes,
        init_trace =
          [Reset; Mdelay 50] ++ writes ++
          [WriteReg 0x11 []; Mdelay 120; WriteReg 0x29 []; Mdelay 200] /\
        length writes = 15%nat /\
        delays writes = [] /\
        length (commands writes) = 15%nat) /\
    Forall (fun e => match e with
                     | WriteReg c ps =>
                         wire (disp.regwidth display) e = c :: ps
                     | _ => True
                     end) init_trace.
Proof.
  intros par st.
  split; [apply init_display_run |].
  split; [reflexivity |].
  split; [reflexivity |].
  split.
  - exists (firstn 15 (skipn 2 init_trace)). repeat split.
  - unfold init_trace. repeat constructor.
Qed.

(** ** The panel descriptor: [display] *)

(** C8, as stated, fails: the descriptor holds no gamma text and no
    reference to a gamma callback. *)
Lemma C8_descriptor_without_gamma :
  (forall text, disp.gamma display <> Some text) /\
  (forall hook, ops.set_gamma (disp.fbtftops display) <> Some hook).
Proof. split; intros ?; discriminate. Qed.

(** C8, amended: the descriptor records the resolution 240 by 280 and the
    bus width 8 (register width 8 as well); it references three callbacks,
    [init_display], [set_var] and [blank]; its gamma text and its gamma
    callback are null and its two gamma counts are 0, so gamma support is
    neither registered nor enabled. The texts [DEFAULT_GAMMA] and
    [HSD20_IPS_GAMMA], each two rows of fourteen hexadecimal bytes, are
    defined beside it and used nowhere. *)
Theorem C8_display_descriptor :
  disp.width display = 240 /\
  disp.height display = 280 /\
  disp.buswidth display = 8 /\
  disp.regwidth display = 8 /\
  ops.init_display (disp.fbtftops display) = Some init_display /\
  ops.set_var (disp.fbtftops display) = Some set_var /\
  ops.blank (disp.fbtftops display) = Some blank /\
  ops.set_gamma (disp.fbtftops display) = None /\
  disp.gamma display = None /\
  disp.gamma_num display = 0 /\
  disp.gamma_len display = 0 /\
  gamma_text_shape 2 14 DEFAULT_GAMMA = true /\
  gamma_text_shape 2 14 HSD20_IPS_GAMMA = true.
Proof. repeat split. Qed.

(** ** Gamma: [set_gamma] *)

Lemma s32_small (x : Z) : - 2 ^ 31 <= x <= INT_MAX -> s32 x = x.
Proof.
  unfold s32, INT_MAX. intros H.
  rewrite Z.mod_small by lia. lia.
Qed.

Lemma index_Some {A} (a : list A) (k : Z) :
  0 <= k < Z.of_nat (length a) -> exists v, index a k = Some v.
Proof.
  intros [H0 H1]. unfold index.
  destruct (Z.leb_spec 0 k) as [_ | ?]; [| lia].
  destruct (lookup_lt_is_Some_2 a (Z.to_nat k)) as [v Hv]; [lia |].
  exists v. exact Hv.
Qed.


(** One masking assignment inside both arrays. *)
Lemma mask_curve_run (st : machine) (k j : Z) :
  0 <= j < Z.of_nat (length gamma_par_mask) ->
  0 <= k < Z.of_nat (length (curves st)) ->
  exists m v,
    index gamma_par_mask j = Some m /\
    index (curves st) k = Some v /\
    mask_curve k j st =
      Some (tt, {| bus := bus st;
                   curves := <[Z.to_nat k := u32 (Z.land v m)]> (curves st);
                   accesses := accesses st ++
                               [MaskRead j; CurveRead k; CurveWrite k] |}).
Proof.
  intros Hj Hk.
  destruct (index_Some gamma_par_mask j Hj) as [m Hm].
  destruct (index_Some (curves st) k Hk) as [v Hv].
  exists m, v. split; [exact Hm |]. split; [exact Hv |].
  unfold mask_curve, mask_at, curve_at, curve_set, bind, touch, ret.
  cbn [bus curves accesses]. rewrite Hm.
  cbn [bus curves accesses]. rewrite Hv.
  cbn [bus curves accesses]. rewrite Hv.
  rewrite <- !app_assoc. reflexivity.
Qed.

(** One read of the gamma buffer inside it. *)
Lemma curve_at_run (st : machine) (k : Z) :
  0 <= k < Z.of_nat (length (curves st)) ->
  exists v,
    index (curves st) k = Some v /\
    curve_at k st =
      Some (v, {| bus := bus st; curves := curves st;
                  accesses := accesses st ++ [CurveRead k] |}).
Proof.
  intros Hk. destruct (index_Some (curves st) k Hk) as [v Hv].
  exists v. split; [exact Hv |].
  unfold curve_at, bind, touch. cbn [bus curves accesses]. rewrite Hv.
  reflexivity.
Qed.

(** The rule of the counted loop: an invariant that every round
    re-establishes holds after the last round, and the loop goes through. *)
Lemma rounds_invariant (I : Z -> machine -> Prop) (body : Z -> M unit) :
  forall (count : nat) (i : Z) (st : machine),
    I i st ->
    (forall k s, i <= k < i + Z.of_nat count -> I k s ->
                 exists s', body k s = Some (tt, s') /\ I (k + 1) s') ->
    exists st', rounds count i body st = Some (tt, st') /\
                I (i + Z.of_nat count) st'.
Proof.
  induction count as [| count IH]; intros i st Hi Hstep.
  - exists st. split; [reflexivity |]. rewrite Z.add_0_r. exact Hi.
  - destruct (Hstep i st ltac:(lia) Hi) as [s1 [Hb H1]].
    destruct (IH (i + 1) s1 H1) as [st' [Hr Hst']].
    { intros k s Hk. apply Hstep. lia. }
    exists st'. split.
    + cbn [rounds]. unfold bind at 1. rewrite Hb. exact Hr.
    + replace (i + Z.of_nat (S count)) with (i + 1 + Z.of_nat count) by lia.
      exact Hst'.
Qed.




Section gamma_bounds.

Variables (nc nv : Z) (st : machine).
Hypothesis Hnv : 0 <= nv <= Z.of_nat (length gamma_par_mask).
Hypothesis Hbuf : (nc - 1) * nv + 14 <= Z.of_nat (length (curves st)).
Hypothesis Hmax : Z.of_nat (length (curves st)) <= INT_MAX.



End gamma_bounds.




(** A value masked by an 8-bit mask is a byte. *)
Lemma land_byte_mask (v m : Z) :
  Z.land m (Z.ones 8) = m -> 0 <= Z.land v m < 256.
Proof.
  intros Hm. rewrite <- Hm, Z.land_assoc, Z.land_ones by lia.
  apply Z.mod_pos_bound. lia.
Qed.

Lemma gamma_par_mask_bytes :
  Forall (fun m => Z.land m (Z.ones 8) = m) gamma_par_mask.
Proof. repeat constructor. Qed.

(** Masked values pass the conversion to [u32] and the 8-bit register
    unchanged. *)
Lemma masked_values_fit (w : Z -> Z) (buf masks : list Z) :
  (forall x, 0 <= x < 256 -> w x = x) ->
  Forall (fun m => Z.land m (Z.ones 8) = m) masks ->
  map w (zip_with Z.land buf masks) = zip_with Z.land buf masks.
Proof.
  intros Hw Hm. revert buf.
  induction Hm as [| m masks Hm _ IH]; intros [| v buf]; try reflexivity.
  cbn. f_equal; [| apply IH].
  apply Hw, land_byte_mask, Hm.
Qed.

Lemma u32_byte (x : Z) : 0 <= x < 256 -> u32 x = x.
Proof. intros H. unfold u32, wrap. apply Z.mod_small. lia. Qed.

(** [set_gamma] on two curves of fourteen values, before the conversions
    are simplified away. *)
Lemma set_gamma_two_curves (par : fbtft_par) (st : machine) :
  num_curves (gamma par) = 2 ->
  num_values (gamma par) = 14 ->
  length (curves st) = 28%nat ->
  exists log,
    set_gamma par st =
      Some (0,
            {| bus := (bus st ++
                       [WriteReg PVGAMCTRL
                          (map u32 (zip_with Z.land (take 14 (curves st))
                                                    gamma_par_mask))]) ++
                      [WriteReg NVGAMCTRL
                          (map u32 (zip_with Z.land (drop 14 (curves st))
                                                    gamma_par_mask))];
               curves := map u32 (zip_with Z.land (curves st)
                                     (gamma_par_mask ++ gamma_par_mask));
               accesses := log |}).
Proof.
  intros Hnc Hnv Hlen. unfold set_gamma, set_gamma_curve.
  rewrite Hnc, Hnv. destruct st as [b buf acc]. cbn [curves bus accesses] in *.
  do 28 (destruct buf as [| ? buf]; [discriminate Hlen |]).
  destruct buf; [| discriminate Hlen].
  eexists. cbv -[Z.land u32]. reflexivity.
Qed.

(** C4: on two curves of fourteen values, whatever the buffer holds,
    [set_gamma] returns 0, leaves in the buffer each value ANDed with the
    mask of its column, and issues two register writes, PVGAMCTRL with the
    fourteen masked values of the first curve and NVGAMCTRL with those of
    the second; each masked value is a byte, so the wire carries exactly
    these ANDs. *)
Theorem C4_set_gamma_masks :
  forall (par : fbtft_par) (st : machine),
    num_curves (gamma par) = 2 ->
    num_values (gamma par) = 14 ->
    length (curves st) = 28%nat ->
    let positive := zip_with Z.land (take 14 (curves st)) gamma_par_mask in
    let negative := zip_with Z.land (drop 14 (curves st)) gamma_par_mask in
    exists log,
      set_gamma par st =
        Some (0, {| bus := bus st ++ [WriteReg PVGAMCTRL positive;
                                      WriteReg NVGAMCTRL negative];
                    curves := positive ++ negative;
                    accesses := log |}) /\
      length positive = 14%nat /\
      length negative = 14%nat /\
      wire (disp.regwidth display) (WriteReg PVGAMCTRL positive) =
        PVGAMCTRL :: positive /\
      wire (disp.regwidth display) (WriteReg NVGAMCTRL negative) =
        NVGAMCTRL :: negative.
Proof.
  intros par st Hnc Hnv Hlen positive negative.
  destruct (set_gamma_two_curves par st Hnc Hnv Hlen) as [log Hrun].
  pose proof gamma_par_mask_bytes as Hmask.
  rewrite !(masked_values_fit u32) in Hrun
    by (try apply u32_byte; try apply Forall_app; auto).
  exists log. split.
  - rewrite Hrun, <- app_assoc. subst positive negative.
    do 3 f_equal.
    rewrite <- (take_drop 14 (curves st)) at 1.
    rewrite zip_with_app; [reflexivity |].
    rewrite length_take, Hlen. reflexivity.
  - subst positive negative.
    rewrite !length_zip_with, length_take, length_drop, Hlen.
    split; [reflexivity |]. split; [reflexivity |].
    cbn [wire map]. change (wrap (disp.regwidth display)) with u8.
    rewrite !(masked_values_fit u8) by (try apply u8_small; auto).
    split; reflexivity.
Qed.

Lemma C4_set_gamma_masks_witness :
  exists log,
    set_gamma (context 0 240 280 false 2 14) (fresh (repeat 0xFF 28)) =
      Some (0, {| bus := [] ++ [WriteReg PVGAMCTRL gamma_par_mask;
                                WriteReg NVGAMCTRL gamma_par_mask];
                  curves := gamma_par_mask ++ gamma_par_mask;
                  accesses := log |}) /\
    length gamma_par_mask = 14%nat /\
    length gamma_par_mask = 14%nat /\
    wire (disp.regwidth display) (WriteReg PVGAMCTRL gamma_par_mask) =
      PVGAMCTRL :: gamma_par_mask /\
    wire (disp.regwidth display) (WriteReg NVGAMCTRL gamma_par_mask) =
      NVGAMCTRL :: gamma_par_mask.
Proof.
  apply (C4_set_gamma_masks (context 0 240 280 false 2 14)
           (fresh (repeat 0xFF 28))); reflexivity.
Defined.

(** ** Gamma: what [set_gamma] does to any number of curves *)

Lemma index_bounds {A} (a : list A) (k : Z) (v : A) :
  index a k = Some v -> 0 <= k < Z.of_nat (length a).
Proof.
  unfold index. destruct (Z.leb_spec 0 k) as [H0 | ?]; [| discriminate].
  intros H. apply lookup_lt_Some in H. lia.
Qed.

Lemma index_insert_eq {A} (a : list A) (k : Z) (x : A) :
  0 <= k < Z.of_nat (length a) ->
  index (<[Z.to_nat k := x]> a) k = Some x.
Proof.
  intros H. unfold index.
  destruct (Z.leb_spec 0 k) as [_ | ?]; [| lia].
  apply list_lookup_insert_eq. lia.
Qed.

Lemma index_insert_ne {A} (a : list A) (k k' : Z) (x : A) :
  0 <= k -> k <> k' ->
  index (<[Z.to_nat k := x]> a) k' = index a k'.
Proof.
  intros H0 Hne. unfold index.
  destruct (Z.leb_spec 0 k') as [H0' | ?]; [| reflexivity].
  apply list_lookup_insert_ne. lia.
Qed.

Lemma column_mask_byte (j : Z) :
  Z.land (column_mask j) (Z.ones 8) = column_mask j.
Proof.
  unfold column_mask, index.
  destruct (0 <=? j); [| reflexivity].
  destruct (gamma_par_mask !! Z.to_nat j) as [m |] eqn:Hm; [| reflexivity].
  cbn. pose proof gamma_par_mask_bytes as Hall.
  rewrite Forall_lookup in Hall. exact (Hall _ _ Hm).
Qed.

Lemma u32_column_mask (v j : Z) :
  u32 (Z.land v (column_mask j)) = Z.land v (column_mask j).
Proof. apply u32_byte, land_byte_mask, column_mask_byte. Qed.

Lemma mod_column (i nv k : Z) : 0 <= k < nv -> (i * nv + k) mod nv = k.
Proof.
  intros H. rewrite Z.add_comm, Z_mod_plus_full. apply Z.mod_small. exact H.
Qed.

(** The fourteen reads of a register write, with the values they see. *)
Lemma read_all_values (c : Z) :
  forall (l : list Z) (st : machine),
    Forall (fun n => 0 <= c + n < Z.of_nat (length (curves st))) l ->
    Z.of_nat (length (curves st)) <= INT_MAX ->
    exists acc,
      eval_all (fun n => curve_at (s32 (c + n))) l st =
        Some (map (fun n => value_at (curves st) (c + n)) l,
              {| bus := bus st; curves := curves st; accesses := acc |}).
Proof.
  induction l as [| n l IH]; intros st Hl Hmax.
  - exists (accesses st). cbn. unfold ret. destruct st; reflexivity.
  - inversion Hl as [| ? ? Hn Hl']; subst.
    assert (Hs : s32 (c + n) = c + n)
      by (apply s32_small; unfold INT_MAX in *; lia).
    destruct (curve_at_run st (c + n) Hn) as [v [Hi Hv]].
    destruct (IH {| bus := bus st; curves := curves st;
                    accesses := accesses st ++ [CurveRead (c + n)] |}
                 Hl' Hmax) as [acc Hvals].
    cbn [bus curves accesses] in Hvals.
    exists acc.
    cbn [eval_all]. unfold bind at 1. rewrite Hs, Hv.
    unfold bind at 1. rewrite Hvals. unfold ret. cbn [map].
    replace (value_at (curves st) (c + n)) with v
      by (unfold value_at; rewrite Hi; reflexivity).
    reflexivity.
Qed.

Section gamma_effect.

Variables (nc nv : Z) (st : machine).
Hypothesis Hnv : 0 <= nv <= 14.
Hypothesis Hbuf : (nc - 1) * nv + 14 <= Z.of_nat (length (curves st)).
Hypothesis Hmax : Z.of_nat (length (curves st)) <= INT_MAX.

(** The masking loop of the curve [i] masks the [nv] elements of that
    curve and nothing else. *)
Lemma masking_loop_effect (i : Z) (s : machine) :
  0 <= i < nc ->
  masked_below nv st s (i * nv) ->
  exists s',
    for_upto nv (fun j => mask_curve (s32 (s32 (i * nv) + j)) j) s =
      Some (tt, s') /\
    bus s' = bus s /\
    masked_below nv st s' ((i + 1) * nv).
Proof.
  intros Hi Hs.
  assert (Hc : 0 <= i * nv /\ i * nv + nv <= nc * nv) by nia.
  assert (Hs32 : s32 (i * nv) = i * nv)
    by (apply s32_small; unfold INT_MAX in *; lia).
  rewrite Hs32. unfold for_upto.
  destruct (rounds_invariant
              (fun j s' => bus s' = bus s /\ masked_below nv st s' (i * nv + j))
              (fun j => mask_curve (s32 (i * nv + j)) j)
              (Z.to_nat nv) 0 s) as [s' [Hrun [Hbus Hin]]].
  - split; [reflexivity |]. rewrite Z.add_0_r. exact Hs.
  - intros k s1 Hk [Hbus1 [Hlen1 Hval1]].
    assert (Hk32 : s32 (i * nv + k) = i * nv + k)
      by (apply s32_small; unfold INT_MAX in *; lia).
    rewrite Hk32.
    destruct (mask_curve_run s1 (i * nv + k) k) as [m [v1 [Hm [Hv1 Hrun]]]];
      [cbn; lia | lia |].
    destruct (index_Some (curves st) (i * nv + k)) as [v Hv]; [lia |].
    pose proof (Hval1 _ _ Hv) as Hv1'. rewrite Z.ltb_irrefl, Hv1 in Hv1'.
    injection Hv1' as ->.
    assert (Hcm : column_mask k = m) by (unfold column_mask; rewrite Hm; reflexivity).
    eexists. split; [exact Hrun |]. cbn [bus curves]. split; [exact Hbus1 |].
    unfold masked_below. cbn [curves].
    split; [rewrite length_insert; exact Hlen1 |].
    intros k' v' Hv'. pose proof (index_bounds _ _ _ Hv') as Hk'.
    destruct (Z.eq_dec (i * nv + k) k') as [<- | Hne].
    + rewrite index_insert_eq by lia.
      rewrite Hv in Hv'. injection Hv' as <-.
      destruct (Z.ltb_spec (i * nv + k) (i * nv + (k + 1))) as [_ | ?]; [| lia].
      rewrite mod_column by lia. rewrite Hcm. rewrite <- Hcm at 1.
      rewrite u32_column_mask, Hcm. reflexivity.
    + rewrite index_insert_ne by lia. rewrite (Hval1 _ _ Hv').
      destruct (Z.ltb_spec k' (i * nv + k)), (Z.ltb_spec k' (i * nv + (k + 1)));
        try reflexivity; lia.
  - exists s'. split; [exact Hrun |]. split; [exact Hbus |].
    replace ((i + 1) * nv) with (i * nv + (0 + Z.of_nat (Z.to_nat nv))) by lia.
    exact Hin.
Qed.

(** One round of the outer loop: the curve [i] is masked and sent. *)
Lemma set_gamma_curve_effect (par : fbtft_par) (i : Z) (s : machine) :
  num_values (gamma par) = nv ->
  0 <= i < nc ->
  masked_below nv st s (i * nv) ->
  exists s',
    set_gamma_curve par i s = Some (tt, s') /\
    bus s' = bus s ++ [gamma_write nv (curves st) i] /\
    masked_below nv st s' ((i + 1) * nv).
Proof.
  intros Hnv' Hi Hs. unfold set_gamma_curve. rewrite Hnv'. cbn zeta.
  destruct (masking_loop_effect i s Hi Hs) as [s1 [Hloop [Hbus1 [Hlen1 Hval1]]]].
  assert (Hc : 0 <= i * nv /\ i * nv <= (nc - 1) * nv) by nia.
  assert (Hs32 : s32 (i * nv) = i * nv)
    by (apply s32_small; unfold INT_MAX in *; lia).
  destruct (read_all_values (i * nv)
              [0; 1; 2; 3; 4; 5; 6; 7; 8; 9; 10; 11; 12; 13] s1)
    as [acc Hargs].
  { repeat constructor; lia. }
  { lia. }
  eexists. split.
  - unfold bind at 1. rewrite Hloop.
    unfold bind at 1. rewrite Hs32, Hargs.
    unfold write_reg, emit. reflexivity.
  - cbn [bus curves accesses]. split.
    + rewrite Hbus1. f_equal. unfold gamma_write. do 2 f_equal.
      apply Forall_fmap_ext_1. repeat constructor.
      all: unfold value_at;
        match goal with |- context [index (curves st) ?k] =>
          destruct (index_Some (curves st) k) as [v Hv]; [lia |];
          rewrite (Hval1 _ _ Hv), Hv; cbn [default];
          destruct (Z.ltb_spec k ((i + 1) * nv)) as [Hlt | Hge]
        end;
        match goal with |- context [?n <? nv] =>
          destruct (Z.ltb_spec n nv); try lia
        end;
        try reflexivity;
        rewrite mod_column by lia; reflexivity.
    + split; [exact Hlen1 | exact Hval1].
Qed.

End gamma_effect.

(** The whole call, for any number of curves: each curve is masked and
    sent in turn. *)
Lemma set_gamma_effect (par : fbtft_par) (st : machine) :
  let nc := num_curves (gamma par) in
  let nv := num_values (gamma par) in
  0 <= nv <= 14 ->
  (0 < nc -> (nc - 1) * nv + 14 <= Z.of_nat (length (curves st))) ->
  Z.of_nat (length (curves st)) <= INT_MAX ->
  exists st',
    set_gamma par st = Some (0, st') /\
    bus st' = bus st ++ map (gamma_write nv (curves st)) (seqZ 0 nc) /\
    masked_below nv st st' (nc * nv).
Proof.
  intros nc nv Hnv Hbuf Hmax.
  assert (Hstart : masked_below nv st st 0).
  { split; [reflexivity |]. intros k v Hv.
    pose proof (index_bounds _ _ _ Hv).
    destruct (Z.ltb_spec k 0); [lia | exact Hv]. }
  unfold set_gamma, for_upto. fold nc.
  destruct (Z_le_gt_dec nc 0) as [Hle | Hgt].
  - exists st. replace (Z.to_nat nc) with 0%nat by lia.
    split; [reflexivity |]. rewrite seqZ_nil by lia.
    split; [cbn; rewrite app_nil_r; reflexivity |].
    destruct Hstart as [Hlen Hval]. split; [exact Hlen |].
    intros k v Hv. pose proof (index_bounds _ _ _ Hv).
    destruct (Z.ltb_spec k (nc * nv)); [nia | exact Hv].
  - destruct (rounds_invariant
                (fun i s => bus s = bus st ++
                                    map (gamma_write nv (curves st)) (seqZ 0 i) /\
                            masked_below nv st s (i * nv))
                (set_gamma_curve par) (Z.to_nat nc) 0 st)
      as [st' [Hrun [Hbus Hin]]].
    + split; [| exact Hstart].
      rewrite seqZ_nil by lia. cbn. rewrite app_nil_r. reflexivity.
    + intros k s Hk [Hbus Hs].
      destruct (set_gamma_curve_effect nc nv st Hnv ltac:(lia) Hmax par k s)
        as [s' [Hrun [Hbus' Hs']]];
        [reflexivity | lia | exact Hs |].
      exists s'. split; [exact Hrun |]. split; [| exact Hs'].
      rewrite Hbus', Hbus, <- app_assoc. f_equal.
      rewrite (seqZ_app 0 k 1) by lia. rewrite map_app. reflexivity.
    + exists st'. unfold bind. rewrite Hrun.
      replace (0 + Z.of_nat (Z.to_nat nc)) with nc in * by lia.
      auto.
Qed.

Lemma index_of_nat {A} (a : list A) (i : nat) : index a (Z.of_nat i) = a !! i.
Proof.
  unfold index. destruct (Z.leb_spec 0 (Z.of_nat i)); [| lia].
  rewrite Nat2Z.id. reflexivity.
Qed.

(** Two buffers of one length that agree wherever the first is defined are
    one buffer. *)
Lemma buffers_agree (a b : list Z) :
  length b = length a ->
  (forall k v, index a k = Some v -> index b k = Some v) ->
  b = a.
Proof.
  intros Hlen H. apply list_eq. intros i.
  destruct (a !! i) as [v |] eqn:Ha.
  - rewrite <- index_of_nat in Ha |- *. apply H. exact Ha.
  - apply lookup_ge_None in Ha. apply lookup_ge_None. lia.
Qed.

(** X1. Masking the buffer: for any number of curves of at most fourteen
    values, on a buffer of at most [INT_MAX] elements and, when there is a
    curve at all, of at least [(num_curves - 1) * num_values + 14],
    [set_gamma] returns 0, replaces every element below
    [num_curves * num_values] by its AND with the mask of its column
    (its index modulo [num_values]) and leaves every other element and
    the length of the buffer alone. *)
Theorem set_gamma_masks_every_curve :
  forall (par : fbtft_par) (st : machine),
    let nc := num_curves (gamma par) in
    let nv := num_values (gamma par) in
    0 <= nv <= 14 ->
    (0 < nc -> (nc - 1) * nv + 14 <= Z.of_nat (length (curves st))) ->
    Z.of_nat (length (curves st)) <= INT_MAX ->
    exists st',
      set_gamma par st = Some (0, st') /\
      length (curves st') = length (curves st) /\
      forall k v,
        index (curves st) k = Some v ->
        index (curves st') k =
          Some (if k <? nc * nv then Z.land v (column_mask (k mod nv)) else v).
Proof.
  intros par st nc nv Hnv Hbuf Hmax.
  destruct (set_gamma_effect par st Hnv Hbuf Hmax) as [st' [Hrun [_ [Hlen Hval]]]].
  exists st'. auto.
Qed.

Lemma set_gamma_masks_every_curve_witness :
  exists st',
    set_gamma (context 0 240 280 false 3 4) (fresh (repeat 0xFFFF 22)) =
      Some (0, st') /\
    length (curves st') = length (curves (fresh (repeat 0xFFFF 22))) /\
    forall k v,
      index (curves (fresh (repeat 0xFFFF 22))) k = Some v ->
      index (curves st') k =
        Some (if k <? 3 * 4 then Z.land v (column_mask (k mod 4)) else v).
Proof.
  apply (set_gamma_masks_every_curve (context 0 240 280 false 3 4)
           (fresh (repeat 0xFFFF 22))).
  - cbn. lia.
  - intros _. cbn. lia.
  - vm_compute. discriminate.
Defined.

(** X2. Sending the curves: for any number of curves of at most fourteen
    values, on a buffer of at most [INT_MAX] elements and, when there is a
    curve at all, of at least [(num_curves - 1) * num_values + 14],
    [set_gamma] adds to the bus one register write per curve, in
    order, at the command [PVGAMCTRL + i] as an [int]; each carries fourteen
    parameters, of which the first [num_values] are the masked values of
    the curve and the remaining ones are the elements that follow the curve
    in the buffer, unmasked, as the caller left them. *)
Theorem set_gamma_one_write_per_curve :
  forall (par : fbtft_par) (st : machine),
    let nc := num_curves (gamma par) in
    let nv := num_values (gamma par) in
    0 <= nv <= 14 ->
    (0 < nc -> (nc - 1) * nv + 14 <= Z.of_nat (length (curves st))) ->
    Z.of_nat (length (curves st)) <= INT_MAX ->
    exists st',
      set_gamma par st = Some (0, st') /\
      bus st' = bus st ++ map (gamma_write nv (curves st)) (seqZ 0 nc) /\
      length (map (gamma_write nv (curves st)) (seqZ 0 nc)) = Z.to_nat nc /\
      Forall (fun e => exists c ps, e = WriteReg c ps /\ length ps = 14%nat)
             (map (gamma_write nv (curves st)) (seqZ 0 nc)).
Proof.
  intros par st nc nv Hnv Hbuf Hmax.
  destruct (set_gamma_effect par st Hnv Hbuf Hmax) as [st' [Hrun [Hbus _]]].
  exists st'. split; [exact Hrun |]. split; [exact Hbus |].
  split; [rewrite length_map, length_seqZ; reflexivity |].
  apply Forall_fmap, Forall_forall. intros i _. cbn.
  do 2 eexists. split; reflexivity.
Qed.

Lemma set_gamma_one_write_per_curve_witness :
  exists st',
    set_gamma (context 0 240 280 false 3 4) (fresh (repeat 0xFFFF 22)) =
      Some (0, st') /\
    bus st' = bus (fresh (repeat 0xFFFF 22)) ++
              map (gamma_write 4 (curves (fresh (repeat 0xFFFF 22)))) (seqZ 0 3) /\
    length (map (gamma_write 4 (curves (fresh (repeat 0xFFFF 22)))) (seqZ 0 3)) =
      Z.to_nat 3 /\
    Forall (fun e => exists c ps, e = WriteReg c ps /\ length ps = 14%nat)
           (map (gamma_write 4 (curves (fresh (repeat 0xFFFF 22)))) (seqZ 0 3)).
Proof.
  apply (set_gamma_one_write_per_curve (context 0 240 280 false 3 4)
           (fresh (repeat 0xFFFF 22))).
  - cbn. lia.
  - intros _. cbn. lia.
  - vm_compute. discriminate.
Defined.

(** X3. Masking twice is masking once: a second call of [set_gamma] on the
    buffer that a first call left goes through as well and leaves that
    buffer as it is. *)
Theorem set_gamma_twice :
  forall (par : fbtft_par) (st : machine),
    let nc := num_curves (gamma par) in
    let nv := num_values (gamma par) in
    0 <= nv <= 14 ->
    (0 < nc -> (nc - 1) * nv + 14 <= Z.of_nat (length (curves st))) ->
    Z.of_nat (length (curves st)) <= INT_MAX ->
    exists st1 st2,
      set_gamma par st = Some (0, st1) /\
      set_gamma par st1 = Some (0, st2) /\
      curves st2 = curves st1.
Proof.
  intros par st nc nv Hnv Hbuf Hmax.
  destruct (set_gamma_effect par st Hnv Hbuf Hmax)
    as [st1 [Hrun1 [_ [Hlen1 Hval1]]]].
  destruct (set_gamma_effect par st1) as [st2 [Hrun2 [_ [Hlen2 Hval2]]]];
    [exact Hnv | rewrite Hlen1; exact Hbuf | rewrite Hlen1; exact Hmax |].
  exists st1, st2. split; [exact Hrun1 |]. split; [exact Hrun2 |].
  apply buffers_agree; [exact Hlen2 |].
  intros k v1 Hv1. pose proof (index_bounds _ _ _ Hv1) as Hk.
  destruct (index_Some (curves st) k) as [v Hv]; [lia |].
  rewrite (Hval2 _ _ Hv1). f_equal.
  rewrite (Hval1 _ _ Hv) in Hv1. injection Hv1 as <-.
  fold nc nv. destruct (k <? nc * nv); [| reflexivity].
  rewrite <- Z.land_assoc, Z.land_diag. reflexivity.
Qed.

Lemma set_gamma_twice_witness :
  exists st1 st2,
    set_gamma (context 0 240 280 false 2 14) (fresh (repeat 0xFFFF 28)) =
      Some (0, st1) /\
    set_gamma (context 0 240 280 false 2 14) st1 = Some (0, st2) /\
    curves st2 = curves st1.
Proof.
  apply (set_gamma_twice (context 0 240 280 false 2 14)
           (fresh (repeat 0xFFFF 28))).
  - cbn. lia.
  - intros _. cbn. lia.
  - vm_compute. discriminate.
Defined.

(** X4. Legal values pass untouched: when every value of the curves has no bit
    outside the mask of its column, [set_gamma] leaves the buffer exactly
    as the caller filled it. *)
Theorem set_gamma_keeps_legal_values :
  forall (par : fbtft_par) (st : machine),
    let nc := num_curves (gamma par) in
    let nv := num_values (gamma par) in
    0 <= nv <= 14 ->
    (0 < nc -> (nc - 1) * nv + 14 <= Z.of_nat (length (curves st))) ->
    Z.of_nat (length (curves st)) <= INT_MAX ->
    (forall k v, index (curves st) k = Some v -> k < nc * nv ->
                 Z.land v (column_mask (k mod nv)) = v) ->
    exists st',
      set_gamma par st = Some (0, st') /\
      curves st' = curves st.
Proof.
  intros par st nc nv Hnv Hbuf Hmax Hlegal.
  destruct (set_gamma_effect par st Hnv Hbuf Hmax)
    as [st' [Hrun [_ [Hlen Hval]]]].
  exists st'. split; [exact Hrun |].
  apply buffers_agree; [exact Hlen |].
  intros k v Hv. rewrite (Hval _ _ Hv). f_equal. fold nc nv.
  destruct (Z.ltb_spec k (nc * nv)); [| reflexivity].
  apply Hlegal; assumption.
Qed.

Lemma set_gamma_keeps_legal_values_witness :
  exists st',
    set_gamma (context 0 240 280 false 2 14) (fresh (repeat 0x15 28)) =
      Some (0, st') /\
    curves st' = curves (fresh (repeat 0x15 28)).
Proof.
  apply (set_gamma_keeps_legal_values (context 0 240 280 false 2 14)
           (fresh (repeat 0x15 28))).
  - cbn. lia.
  - intros _. cbn. lia.
  - vm_compute. discriminate.
  - intros k v Hv Hk. pose proof (index_bounds _ _ _ Hv) as Hb.
    cbn in Hb, Hk.
    assert (Hcases : k = 0 \/ k = 1 \/ k = 2 \/ k = 3 \/ k = 4 \/ k = 5 \/
                     k = 6 \/ k = 7 \/ k = 8 \/ k = 9 \/ k = 10 \/ k = 11 \/
                     k = 12 \/ k = 13 \/ k = 14 \/ k = 15 \/ k = 16 \/
                     k = 17 \/ k = 18 \/ k = 19 \/ k = 20 \/ k = 21 \/
                     k = 22 \/ k = 23 \/ k = 24 \/ k = 25 \/ k = 26 \/
                     k = 27) by lia.
    repeat (destruct Hcases as [-> | Hcases]);
      try subst k; cbn in Hv; injection Hv as <-; reflexivity.
Defined.

(** ** Gamma: where [set_gamma] leaves its arrays *)












(** X7. Without a curve there is nothing to do: when [num_curves] is zero or
    negative, as in the configuration the descriptor registers
    ([gamma_num = 0]), [set_gamma] returns 0 and leaves bus, buffer and
    arrays alone, whatever [num_values] and the buffer are. *)
Theorem set_gamma_without_curves :
  forall (par : fbtft_par) (st : machine),
    num_curves (gamma par) <= 0 ->
    set_gamma par st = Some (0, st).
Proof.
  intros par st Hnc. unfold set_gamma, for_upto, bind.
  replace (Z.to_nat (num_curves (gamma par))) with 0%nat by lia.
  reflexivity.
Qed.

Lemma set_gamma_without_curves_witness :
  set_gamma (context 0 240 280 false (disp.gamma_num display) 99)
            (fresh [1; 2; 3]) =
    Some (0, fresh [1; 2; 3]).
Proof.
  apply (set_gamma_without_curves
           (context 0 240 280 false (disp.gamma_num display) 99)
           (fresh [1; 2; 3])).
  cbn. lia.
Defined.

(** ** Orientation: more on [set_var] *)

(** What leaves the switch: a byte and two offsets of 0 or 20. *)
Lemma set_var_switch_range (par : fbtft_par) (m xo yo : Z) :
  set_var_switch par = Some (m, xo, yo) ->
  0 <= m < 256 /\ (xo = 0 \/ xo = 20) /\ (yo = 0 \/ yo = 20).
Proof.
  destruct par as [[[x y r]] b g]. unfold set_var_switch.
  cbn [rotate var info bgr].
  destruct (r =? 0); [| destruct (r =? 90); [| destruct (r =? 180);
    [| destruct (r =? 270); [| discriminate]]]];
    destruct b; intros [= <- <- <-]; vm_compute; intuition discriminate.
Qed.

(** X8. The addressing-mode byte tells the orientation: two device contexts
    for which [set_var] computes the same byte have the same rotation and
    the same colour order, hence the same offsets. *)
Theorem addressing_mode_tells_orientation :
  forall (par par' : fbtft_par) (m xo yo xo' yo' : Z),
    set_var_switch par = Some (m, xo, yo) ->
    set_var_switch par' = Some (m, xo', yo') ->
    rotate (var (info par)) = rotate (var (info par')) /\
    bgr par = bgr par' /\ xo = xo' /\ yo = yo'.
Proof.
  intros [[[x y r]] b g] [[[x' y' r']] b' g'] m xo yo xo' yo'.
  unfold set_var_switch. cbn [rotate var info bgr].
  destruct (Z.eqb_spec r 0) as [-> | _];
    [| destruct (Z.eqb_spec r 90) as [-> | _];
       [| destruct (Z.eqb_spec r 180) as [-> | _];
          [| destruct (Z.eqb_spec r 270) as [-> | _]; [| discriminate]]]];
    (destruct (Z.eqb_spec r' 0) as [-> | _];
     [| destruct (Z.eqb_spec r' 90) as [-> | _];
        [| destruct (Z.eqb_spec r' 180) as [-> | _];
           [| destruct (Z.eqb_spec r' 270) as [-> | _];
              [| intros _; discriminate]]]]);
    destruct b, b'; vm_compute; intros H H';
    injection H as <- <- <-;
    first [discriminate H' | injection H' as <- <-; repeat split].
Qed.

Lemma addressing_mode_tells_orientation_witness :
  rotate (var (info (context 270 280 240 true 0 0))) =
    rotate (var (info (context 270 1 1 true 2 14))) /\
  bgr (context 270 280 240 true 0 0) = bgr (context 270 1 1 true 2 14) /\
  0 = 0 /\ 20 = 20.
Proof.
  apply (addressing_mode_tells_orientation
           (context 270 280 240 true 0 0) (context 270 1 1 true 2 14)
           0x68 0 20 0 20); reflexivity.
Defined.

(** X9. The windows arrive exactly when they fit a byte: at a supported angle
    and for a resolution of at least 1 by 1, the start of each window
    arrives as computed, and the end that the wire spells is the computed
    [offset + res - 1] if and only if [offset + res <= 256]. *)
Theorem window_arrives_iff_it_fits :
  forall (par : fbtft_par) (st : machine) (m xo yo : Z),
    set_var_switch par = Some (m, xo, yo) ->
    1 <= xres (var (info par)) ->
    1 <= yres (var (info par)) ->
    exists (madctl caset raset : event) (xe ye : Z),
      set_var par st = Some (0, emitted st [madctl; caset; raset]) /\
      wire (disp.regwidth display) caset = [0x2A; 0; xo; 0; xe] /\
      wire (disp.regwidth display) raset = [0x2B; 0; yo; 0; ye] /\
      (coordinate 0 xe = xo + xres (var (info par)) - 1 <->
       xo + xres (var (info par)) <= 256) /\
      (coordinate 0 ye = yo + yres (var (info par)) - 1 <->
       yo + yres (var (info par)) <= 256).
Proof.
  intros par st m xo yo Hs Hx Hy.
  destruct (set_var_switch_range par m xo yo Hs) as [_ [Hxo Hyo]].
  do 3 eexists.
  exists ((xo + xres (var (info par)) - 1) mod 256),
         ((yo + yres (var (info par)) - 1) mod 256).
  split; [apply set_var_writes; exact Hs |].
  assert (W : forall c a b, 0 <= c < 256 -> 0 <= a < 256 ->
             wire (disp.regwidth display) (WriteReg c [0; a; 0; u32 b]) =
             [c; 0; a; 0; b mod 256]).
  { intros c a b Hc Ha. cbn [wire map disp.regwidth display].
    change (wrap 8) with u8.
    rewrite (u8_u32 b), (u8_small c), (u8_small a), (u8_small 0) by lia.
    reflexivity. }
  rewrite !W by lia.
  split; [reflexivity |]. split; [reflexivity |].
  unfold coordinate.
  pose proof (Z.mod_pos_bound (xo + xres (var (info par)) - 1) 256 ltac:(lia)).
  pose proof (Z.mod_pos_bound (yo + yres (var (info par)) - 1) 256 ltac:(lia)).
  split; (split; [lia | intros; rewrite Z.mod_small by lia; lia]).
Qed.

Lemma window_arrives_iff_it_fits_witness :
  exists (madctl caset raset : event) (xe ye : Z),
    set_var (context 0 240 280 false 0 0) (fresh []) =
      Some (0, emitted (fresh []) [madctl; caset; raset]) /\
    wire (disp.regwidth display) caset = [0x2A; 0; 0; 0; xe] /\
    wire (disp.regwidth display) raset = [0x2B; 0; 20; 0; ye] /\
    (coordinate 0 xe = 0 + 240 - 1 <-> 0 + 240 <= 256) /\
    (coordinate 0 ye = 20 + 280 - 1 <-> 20 + 280 <= 256).
Proof.
  apply (window_arrives_iff_it_fits (context 0 240 280 false 0 0) (fresh [])
           0 0 20); [reflexivity | cbn; lia | cbn; lia].
Defined.

(** X10. A resolution of zero is not rejected: at a supported angle [set_var]
    returns 0 all the same, and the end of the column window, computed in
    [unsigned int], wraps to 4294967295 where the offset is 0 and falls
    one below the start where the offset is 20. *)
Theorem set_var_accepts_zero_resolution :
  forall (par : fbtft_par) (st : machine) (m xo yo : Z),
    set_var_switch par = Some (m, xo, yo) ->
    xres (var (info par)) = 0 ->
    exists (madctl raset : event),
      set_var par st =
        Some (0, emitted st
                   [madctl;
                    WriteReg 0x2A [0; xo; 0;
                                   if xo =? 0 then 4294967295 else xo - 1];
                    raset]).
Proof.
  intros par st m xo yo Hs Hx.
  destruct (set_var_switch_range par m xo yo Hs) as [_ [Hxo _]].
  do 2 eexists. rewrite (set_var_writes par st m xo yo Hs), Hx.
  destruct Hxo as [-> | ->]; reflexivity.
Qed.

Lemma set_var_accepts_zero_resolution_witness :
  exists (madctl raset : event),
    set_var (context 180 0 0 false 0 0) (fresh []) =
      Some (0, emitted (fresh [])
                 [madctl; WriteReg 0x2A [0; 0; 0; 4294967295]; raset]).
Proof.
  apply (set_var_accepts_zero_resolution (context 180 0 0 false 0 0)
           (fresh []) 0xC0 0 0); reflexivity.
Defined.

(** ** The callbacks in sequence *)

(** X11. Any sequence of [blank] calls goes through, returns 0 at every call
    and puts on the bus one parameterless command per call, in the order of
    the calls: display-off for [true], display-on for [false]; the buffer
    and the access log stay as they were. *)
Theorem blank_sequence :
  forall (par : fbtft_par) (ons : list bool) (st : machine),
    eval_all (blank par) ons st =
      Some (map (fun _ => 0) ons, emitted st (map blank_command ons)).
Proof.
  intros par. induction ons as [| on ons IH]; intros st.
  - cbn. unfold ret, emitted. rewrite app_nil_r. destruct st; reflexivity.
  - cbn [eval_all map]. unfold bind at 1.
    assert (Hb : blank par on st = Some (0, emitted st [blank_command on]))
      by (destruct on; reflexivity).
    rewrite Hb. unfold bind at 1. rewrite IH, emitted_emitted. reflexivity.
Qed.

(** X12. Initialization followed by [set_var], as at probe time: when the
    rotation is supported the call pair returns 0 and the last values
    written to the addressing-mode and window registers are those of
    [set_var]; when it is not, the pair returns [-EINVAL], the bus carries
    the initialization alone, the addressing mode stays at the 0x00 that
    [init_display] wrote and no window was ever written. *)
Theorem init_then_set_var :
  forall (par : fbtft_par) (st : machine),
    exists (r : Z) (es : list event),
      (init_display par ;; set_var par) st = Some (r, emitted st es) /\
      (forall m xo yo,
          set_var_switch par = Some (m, xo, yo) ->
          r = 0 /\
          last_params MIPI_DCS_SET_ADDRESS_MODE es = Some [m] /\
          last_params 0x2A es =
            Some [0; xo; 0; u32 (xo + xres (var (info par)) - 1)] /\
          last_params 0x2B es =
            Some [0; yo; 0; u32 (yo + yres (var (info par)) - 1)]) /\
      (set_var_switch par = None ->
          r = - EINVAL /\
          es = init_trace /\
          last_params MIPI_DCS_SET_ADDRESS_MODE es = Some [0] /\
          last_params 0x2A es = None /\
          last_params 0x2B es = None).
Proof.
  intros par st. unfold bind. rewrite init_display_run.
  destruct (set_var_switch par) as [[[m xo] yo] |] eqn:Hs.
  - rewrite (set_var_writes par _ m xo yo Hs), emitted_emitted.
    do 2 eexists. split; [reflexivity |].
    split; [| discriminate].
    intros m' xo' yo' [= <- <- <-]. repeat split.
  - unfold set_var. rewrite Hs. unfold ret.
    do 2 eexists. split; [reflexivity |].
    split; [discriminate |].
    intros _. repeat split.
Qed.

(** X13. The curves that [init_display] programs are legal gamma values: with
    the parameters of its two gamma writes in the buffer, [set_gamma] on
    two curves of fourteen values sends these two writes again, unchanged,
    and leaves the buffer as it is. *)
Theorem init_curves_pass_set_gamma :
  forall (par : fbtft_par) (st : machine) (positive negative : list Z),
    num_curves (gamma par) = 2 ->
    num_values (gamma par) = 14 ->
    last_params PVGAMCTRL init_trace = Some positive ->
    last_params NVGAMCTRL init_trace = Some negative ->
    curves st = positive ++ negative ->
    exists st',
      set_gamma par st = Some (0, st') /\
      bus st' = bus st ++ [WriteReg PVGAMCTRL positive;
                           WriteReg NVGAMCTRL negative] /\
      curves st' = curves st.
Proof.
  intros par st positive negative Hnc Hnv Hp Hn Hbuf.
  injection Hp as <-. injection Hn as <-.
  destruct (set_gamma_two_curves par st Hnc Hnv) as [log Hrun];
    [rewrite Hbuf; reflexivity |].
  eexists. split; [exact Hrun |]. cbn [bus curves]. rewrite Hbuf.
  split; [rewrite <- app_assoc |]; reflexivity.
Qed.

Lemma init_curves_pass_set_gamma_witness :
  exists st',
    set_gamma (context 0 240 280 false 2 14)
      (fresh ([0xF0; 0x06; 0x0B; 0x0A; 0x09; 0x26; 0x29;
               0x33; 0x41; 0x18; 0x16; 0x15; 0x29; 0x2D] ++
              [0xF0; 0x04; 0x08; 0x08; 0x07; 0x03; 0x28;
               0x32; 0x40; 0x3B; 0x19; 0x18; 0x2A; 0x2E])) =
      Some (0, st') /\
    bus st' =
      [] ++ [WriteReg PVGAMCTRL [0xF0; 0x06; 0x0B; 0x0A; 0x09; 0x26; 0x29;
                                 0x33; 0x41; 0x18; 0x16; 0x15; 0x29; 0x2D];
             WriteReg NVGAMCTRL [0xF0; 0x04; 0x08; 0x08; 0x07; 0x03; 0x28;
                                 0x32; 0x40; 0x3B; 0x19; 0x18; 0x2A; 0x2E]] /\
    curves st' =
      [0xF0; 0x06; 0x0B; 0x0A; 0x09; 0x26; 0x29;
       0x33; 0x41; 0x18; 0x16; 0x15; 0x29; 0x2D] ++
      [0xF0; 0x04; 0x08; 0x08; 0x07; 0x03; 0x28;
       0x32; 0x40; 0x3B; 0x19; 0x18; 0x2A; 0x2E].
Proof.
  apply (init_curves_pass_set_gamma (context 0 240 280 false 2 14)
           (fresh ([0xF0; 0x06; 0x0B; 0x0A; 0x09; 0x26; 0x29;
                    0x33; 0x41; 0x18; 0x16; 0x15; 0x29; 0x2D] ++
                   [0xF0; 0x04; 0x08; 0x08; 0x07; 0x03; 0x28;
                    0x32; 0x40; 0x3B; 0x19; 0x18; 0x2A; 0x2E])));
    reflexivity.
Defined.
